(** * Car Rental Acquisition Simulator: the financial model of [app.py]

    The script [app.py] reads a fleet table and a handful of sidebar
    widgets, and derives from them the investment, financing, revenue,
    expense and profitability figures of the acquisition together with a
    61-point cumulative cash-flow projection.

    Numbers.  Python's [int] and [float] values are modelled uniformly by
    exact rationals ([Q]); the formulas are those of the script, evaluated
    without rounding and without overflow, and every cell of the table
    holds a number.  Equality of figures is therefore stated with [==]
    (equality of rationals) or, where the two sides are built by the same
    operations, with Leibniz equality.  The loan term is an integer widget
    and is used as an exponent, so it is kept in [Z].

    Division.  Python's [/] raises [ZeroDivisionError] on a zero divisor.
    Every division of the script goes through [truediv], which returns in
    the error monad [py]; that the script never raises is then a theorem,
    not an assumption. *)

From Stdlib Require Import QArith Qpower ZArith List String Bool Lia Lqa.
From Stdlib Require Import Permutation Morphisms.
Import ListNotations.

Local Open Scope Q_scope.

(** ** The error monad of the script *)

Inductive py (A : Type) : Type :=
| Return (a : A)
| ZeroDivisionError.

Arguments Return {A} a.
Arguments ZeroDivisionError {A}.

Definition bind {A B : Type} (m : py A) (k : A -> py B) : py B :=
  match m with
  | Return a => k a
  | ZeroDivisionError => ZeroDivisionError
  end.

Notation "x <- m ;; k" := (bind m (fun x => k))
  (at level 61, m at next level, right associativity).

(** Python's [a / b] on numbers. *)
Definition truediv (a b : Q) : py Q :=
  if Qeq_bool b 0 then ZeroDivisionError else Return (a / b).

(** Python's [a > b] on numbers. *)
Definition gt (a b : Q) : bool := negb (Qle_bool a b).

(** ** Data model *)

(** One row of the fleet table, with the column keys of the script. *)
Record FleetRow : Type := {
  C_NAME : string;
  C_PRICE : Q;
  C_RENT : Q;
  C_MAINT : Q;
  C_INS : Q
}.

(** The data frame behind the editor: an ordered sequence of rows. *)
Definition DataFrame : Type := list FleetRow.

(** [df.empty] *)
Definition empty (df : DataFrame) : bool :=
  match df with
  | [] => true
  | _ :: _ => false
  end.

(** [df[col].sum()] *)
Definition sum (col : FleetRow -> Q) (df : DataFrame) : Q :=
  fold_left Qplus (map col df) 0.

(** The values of the sidebar widgets.  When "Use Financing?" is not
    ticked the script sets the three loan variables to 0. *)
Record Sidebar : Type := {
  total_goodwill : Q;
  utilization_rate : Q;
  summer_gap_total : Q;
  monthly_labor : Q;
  fixed_opex_annual : Q;
  ob_tax_rate : Q;
  use_loan : bool;
  loan_pct : Q;
  loan_interest : Q;
  loan_term : Z
}.

(** [float('inf')] is the only non-finite value the script produces on
    purpose; payback is either a number of months or that sentinel. *)
Inductive Payback : Type :=
| Months (q : Q)
| Inf.

(** Every figure the calculation block binds. *)
Record Evaluation : Type := {
  num_cars : nat;
  total_assets : Q;
  total_price : Q;
  loan_amount : Q;
  upfront_cash : Q;
  monthly_loan : Q;
  base_annual_rev : Q;
  gross_rev : Q;
  after_tax_rev : Q;
  annual_car_costs : Q;
  total_annual_opex : Q;
  annual_net_profit : Q;
  monthly_net_profit : Q;
  monthly_cash_flow : Q;
  payback_months : Payback;
  roi_pct : Q;
  months : list Z;
  cash_pos : list Q
}.

(** What one run of the script shows: the warning of the [else] branch, or
    the dashboard fed by the calculation block. *)
Inductive Outcome : Type :=
| EmptyFleetSignal
| EvaluationResult (r : Evaluation).

(** ** The calculation block *)

(** [np.arange(lo, hi)] *)
Definition arange (lo hi : nat) : list Z :=
  map Z.of_nat (seq lo (hi - lo)).

(** Line 79: the amount borrowed. *)
Definition calc_loan_amount (sb : Sidebar) (total_price : Q) : py Q :=
  if use_loan sb then
    pct <- truediv (loan_pct sb) 100 ;;
    Return (total_price * pct)
  else Return 0.

(** Lines 82-87: the level monthly payment. *)
Definition calc_monthly_loan (sb : Sidebar) (loan_amount : Q) : py Q :=
  if use_loan sb && (0 <? loan_term sb)%Z then
    yearly <- truediv (loan_interest sb) 100 ;;
    m_rate <- truediv yearly 12 ;;
    let n_pay := (loan_term sb * 12)%Z in
    if gt m_rate 0 then
      truediv (loan_amount * (m_rate * (1 + m_rate) ^ n_pay))
              ((1 + m_rate) ^ n_pay - 1)
    else truediv loan_amount (inject_Z n_pay)
  else Return 0.

(** Line 103 *)
Definition calc_payback (upfront_cash monthly_cash_flow : Q) : py Payback :=
  if gt monthly_cash_flow 0 then
    q <- truediv upfront_cash monthly_cash_flow ;;
    Return (Months q)
  else Return Inf.

(** Line 104 *)
Definition calc_roi (annual_net_profit total_price : Q) : py Q :=
  if gt total_price 0 then
    q <- truediv annual_net_profit total_price ;;
    Return (q * 100)
  else Return 0.

(** Lines 73-125, the body of [if not edited_df.empty:]. *)
Definition calculations (edited_df : DataFrame) (sb : Sidebar) : py Evaluation :=
  let num_cars := List.length edited_df in
  (* Investment & Financing *)
  let total_assets := sum C_PRICE edited_df in
  let total_price := total_assets + total_goodwill sb in
  loan_amount <- calc_loan_amount sb total_price ;;
  let upfront_cash := total_price - loan_amount in
  monthly_loan <- calc_monthly_loan sb loan_amount ;;
  (* Revenue Logic *)
  util <- truediv (utilization_rate sb) 100 ;;
  let base_annual_rev := (sum C_RENT edited_df * 12) * util in
  let gross_rev := base_annual_rev + summer_gap_total sb in
  tax <- truediv (ob_tax_rate sb) 100 ;;
  let after_tax_rev := gross_rev * (1 - tax) in
  (* Expense Logic *)
  let annual_car_costs := sum C_MAINT edited_df + sum C_INS edited_df in
  let total_annual_opex :=
    annual_car_costs + (monthly_labor sb * 12) + fixed_opex_annual sb in
  (* Profitability *)
  let annual_net_profit := after_tax_rev - total_annual_opex in
  monthly_net_profit <- truediv annual_net_profit 12 ;;
  let monthly_cash_flow := monthly_net_profit - monthly_loan in
  payback_months <- calc_payback upfront_cash monthly_cash_flow ;;
  roi_pct <- calc_roi annual_net_profit total_price ;;
  (* Cash flow chart *)
  let months := arange 0 61 in
  let cash_pos :=
    map (fun m => - upfront_cash + (monthly_cash_flow * inject_Z m)) months in
  Return {|
    num_cars := num_cars;
    total_assets := total_assets;
    total_price := total_price;
    loan_amount := loan_amount;
    upfront_cash := upfront_cash;
    monthly_loan := monthly_loan;
    base_annual_rev := base_annual_rev;
    gross_rev := gross_rev;
    after_tax_rev := after_tax_rev;
    annual_car_costs := annual_car_costs;
    total_annual_opex := total_annual_opex;
    annual_net_profit := annual_net_profit;
    monthly_net_profit := monthly_net_profit;
    monthly_cash_flow := monthly_cash_flow;
    payback_months := payback_months;
    roi_pct := roi_pct;
    months := months;
    cash_pos := cash_pos
  |}.

(** Lines 72-142: the whole evaluation, from the edited table and the
    sidebar to what is shown. *)
Definition evaluate (edited_df : DataFrame) (sb : Sidebar) : py Outcome :=
  if negb (empty edited_df) then
    r <- calculations edited_df sb ;;
    Return (EvaluationResult r)
  else Return EmptyFleetSignal.

(** The table the session starts with (lines 61-67). *)
Definition fleet_df : DataFrame := [
  {| C_NAME := "Kia Picanto 1"%string; C_PRICE := 8000; C_RENT := 900;
     C_MAINT := 3600; C_INS := 1680 |};
  {| C_NAME := "Kia Picanto 2"%string; C_PRICE := 8000; C_RENT := 900;
     C_MAINT := 3600; C_INS := 1680 |};
  {| C_NAME := "Hyundai i10"%string; C_PRICE := 8000; C_RENT := 1000;
     C_MAINT := 3600; C_INS := 1680 |};
  {| C_NAME := "Lancer 1"%string; C_PRICE := 8000; C_RENT := 1000;
     C_MAINT := 3600; C_INS := 1680 |};
  {| C_NAME := "Kia rio 1"%string; C_PRICE := 8000; C_RENT := 900;
     C_MAINT := 3600; C_INS := 1680 |}
].

(** The widgets at their initial values (lines 30-47), financing off. *)
Definition sidebar_defaults : Sidebar := {|
  total_goodwill := 15000;
  utilization_rate := 85;
  summer_gap_total := 8000;
  monthly_labor := 500;
  fixed_opex_annual := 1500;
  ob_tax_rate := 6;
  use_loan := false;
  loan_pct := 0;
  loan_interest := 0;
  loan_term := 0
|}.

(** "Use Financing?" ticked, the three loan widgets at their initial
    values (lines 45-47). *)
Definition sidebar_financed : Sidebar := {|
  total_goodwill := 15000;
  utilization_rate := 85;
  summer_gap_total := 8000;
  monthly_labor := 500;
  fixed_opex_annual := 1500;
  ob_tax_rate := 6;
  use_loan := true;
  loan_pct := 50;
  loan_interest := 7;
  loan_term := 3
|}.

(** The same scenario with one loan widget changed. *)
Definition with_loan_interest (sb : Sidebar) (i : Q) : Sidebar := {|
  total_goodwill := total_goodwill sb;
  utilization_rate := utilization_rate sb;
  summer_gap_total := summer_gap_total sb;
  monthly_labor := monthly_labor sb;
  fixed_opex_annual := fixed_opex_annual sb;
  ob_tax_rate := ob_tax_rate sb;
  use_loan := use_loan sb;
  loan_pct := loan_pct sb;
  loan_interest := i;
  loan_term := loan_term sb
|}.

Definition with_loan_term (sb : Sidebar) (t : Z) : Sidebar := {|
  total_goodwill := total_goodwill sb;
  utilization_rate := utilization_rate sb;
  summer_gap_total := summer_gap_total sb;
  monthly_labor := monthly_labor sb;
  fixed_opex_annual := fixed_opex_annual sb;
  ob_tax_rate := ob_tax_rate sb;
  use_loan := use_loan sb;
  loan_pct := loan_pct sb;
  loan_interest := loan_interest sb;
  loan_term := t
|}.

(** ** The same figures without the error monad

    [figures] repeats the calculation block with the rational division of
    [Q], which is total.  It is the closed form the script's results are
    compared with: [calculations_figures] below shows that the script never
    divides by zero and computes exactly these values. *)

Definition loan_amount_of (sb : Sidebar) (total_price : Q) : Q :=
  if use_loan sb then total_price * (loan_pct sb / 100) else 0.

Definition m_rate_of (sb : Sidebar) : Q := (loan_interest sb / 100) / 12.

Definition n_pay_of (sb : Sidebar) : Z := (loan_term sb * 12)%Z.

Definition monthly_loan_of (sb : Sidebar) (loan_amount : Q) : Q :=
  if use_loan sb && (0 <? loan_term sb)%Z then
    if gt (m_rate_of sb) 0 then
      loan_amount * (m_rate_of sb * (1 + m_rate_of sb) ^ n_pay_of sb)
      / ((1 + m_rate_of sb) ^ n_pay_of sb - 1)
    else loan_amount / inject_Z (n_pay_of sb)
  else 0.

Definition payback_of (upfront_cash monthly_cash_flow : Q) : Payback :=
  if gt monthly_cash_flow 0 then Months (upfront_cash / monthly_cash_flow)
  else Inf.

Definition roi_of (annual_net_profit total_price : Q) : Q :=
  if gt total_price 0 then (annual_net_profit / total_price) * 100 else 0.

Definition figures (edited_df : DataFrame) (sb : Sidebar) : Evaluation :=
  let total_assets := sum C_PRICE edited_df in
  let total_price := total_assets + total_goodwill sb in
  let loan_amount := loan_amount_of sb total_price in
  let upfront_cash := total_price - loan_amount in
  let monthly_loan := monthly_loan_of sb loan_amount in
  let base_annual_rev :=
    (sum C_RENT edited_df * 12) * (utilization_rate sb / 100) in
  let gross_rev := base_annual_rev + summer_gap_total sb in
  let after_tax_rev := gross_rev * (1 - ob_tax_rate sb / 100) in
  let annual_car_costs := sum C_MAINT edited_df + sum C_INS edited_df in
  let total_annual_opex :=
    annual_car_costs + (monthly_labor sb * 12) + fixed_opex_annual sb in
  let annual_net_profit := after_tax_rev - total_annual_opex in
  let monthly_net_profit := annual_net_profit / 12 in
  let monthly_cash_flow := monthly_net_profit - monthly_loan in
  {|
    num_cars := List.length edited_df;
    total_assets := total_assets;
    total_price := total_price;
    loan_amount := loan_amount;
    upfront_cash := upfront_cash;
    monthly_loan := monthly_loan;
    base_annual_rev := base_annual_rev;
    gross_rev := gross_rev;
    after_tax_rev := after_tax_rev;
    annual_car_costs := annual_car_costs;
    total_annual_opex := total_annual_opex;
    annual_net_profit := annual_net_profit;
    monthly_net_profit := monthly_net_profit;
    monthly_cash_flow := monthly_cash_flow;
    payback_months := payback_of upfront_cash monthly_cash_flow;
    roi_pct := roi_of annual_net_profit total_price;
    months := arange 0 61;
    cash_pos :=
      map (fun m => - upfront_cash + (monthly_cash_flow * inject_Z m))
          (arange 0 61)
  |}.

(** ** What the dashboard draws from the figures *)




(** ** Notions the further properties are stated with *)





(** * Properties *)

(** ** Comparison and division *)

Lemma gt_true (a b : Q) : gt a b = true <-> b < a.
Proof.
  unfold gt. rewrite negb_true_iff.
  split; intro H.
  - apply Qnot_le_lt. intro Hle.
    apply Qle_bool_iff in Hle. congruence.
  - destruct (Qle_bool a b) eqn:E; [| reflexivity].
    apply Qle_bool_iff in E. exfalso. exact (Qlt_not_le _ _ H E).
Qed.


Lemma truediv_nonzero (a b : Q) :
  ~ b == 0 -> truediv a b = Return (a / b).
Proof.
  intro Hb. unfold truediv.
  destruct (Qeq_bool b 0) eqn:E; [| reflexivity].
  apply Qeq_bool_iff in E. contradiction.
Qed.

Lemma truediv_zero (a b : Q) : b == 0 -> truediv a b = ZeroDivisionError.
Proof.
  intro Hb. unfold truediv. now rewrite (Qeq_eq_bool _ _ Hb).
Qed.

Lemma truediv_100 (a : Q) : truediv a 100 = Return (a / 100).
Proof. reflexivity. Qed.

Lemma truediv_12 (a : Q) : truediv a 12 = Return (a / 12).
Proof. reflexivity. Qed.

(** ** The two denominators of the loan payment *)

Lemma annuity_denominator (r : Q) (n : Z) :
  0 < r -> (0 < n)%Z -> 0 < (1 + r) ^ n - 1.
Proof.
  intros Hr Hn.
  assert (H1 : 1 < 1 + r) by lra.
  pose proof (Qpower_1_lt (1 + r) n H1 Hn) as Hp.
  lra.
Qed.

Lemma n_pay_positive (sb : Sidebar) :
  (0 <? loan_term sb)%Z = true -> (0 < n_pay_of sb)%Z.
Proof.
  intro H. apply Z.ltb_lt in H. unfold n_pay_of. lia.
Qed.

Lemma inject_Z_nonzero (z : Z) : (0 < z)%Z -> ~ inject_Z z == 0.
Proof.
  intros Hz Heq. unfold Qeq in Heq. simpl in Heq. lia.
Qed.

(** ** The script computes the closed form and never raises *)

Lemma calc_loan_amount_figures (sb : Sidebar) (tp : Q) :
  calc_loan_amount sb tp = Return (loan_amount_of sb tp).
Proof.
  unfold calc_loan_amount, loan_amount_of.
  destruct (use_loan sb); reflexivity.
Qed.

Lemma calc_monthly_loan_figures (sb : Sidebar) (la : Q) :
  calc_monthly_loan sb la = Return (monthly_loan_of sb la).
Proof.
  unfold calc_monthly_loan, monthly_loan_of.
  destruct (use_loan sb && (0 <? loan_term sb)%Z) eqn:Hfin; [| reflexivity].
  apply andb_true_iff in Hfin as [_ Hterm].
  rewrite truediv_100. cbn [bind].
  rewrite truediv_12. cbn [bind].
  fold (m_rate_of sb). fold (n_pay_of sb).
  pose proof (n_pay_positive sb Hterm) as Hn.
  destruct (gt (m_rate_of sb) 0) eqn:Hrate.
  - apply truediv_nonzero.
    apply gt_true in Hrate.
    pose proof (annuity_denominator _ _ Hrate Hn) as Hd.
    intro Heq. rewrite Heq in Hd. now apply Qlt_irrefl in Hd.
  - apply truediv_nonzero. now apply inject_Z_nonzero.
Qed.

Lemma calc_payback_figures (u c : Q) :
  calc_payback u c = Return (payback_of u c).
Proof.
  unfold calc_payback, payback_of.
  destruct (gt c 0) eqn:Hc; [| reflexivity].
  apply gt_true in Hc.
  rewrite truediv_nonzero; [reflexivity |].
  intro Heq. rewrite Heq in Hc. now apply Qlt_irrefl in Hc.
Qed.

Lemma calc_roi_figures (a tp : Q) :
  calc_roi a tp = Return (roi_of a tp).
Proof.
  unfold calc_roi, roi_of.
  destruct (gt tp 0) eqn:Htp; [| reflexivity].
  apply gt_true in Htp.
  rewrite truediv_nonzero; [reflexivity |].
  intro Heq. rewrite Heq in Htp. now apply Qlt_irrefl in Htp.
Qed.

Lemma calculations_figures (df : DataFrame) (sb : Sidebar) :
  calculations df sb = Return (figures df sb).
Proof.
  unfold calculations.
  rewrite calc_loan_amount_figures. cbn [bind].
  rewrite calc_monthly_loan_figures. cbn [bind].
  rewrite !truediv_100. cbn [bind].
  rewrite truediv_12. cbn [bind].
  rewrite calc_payback_figures. cbn [bind].
  rewrite calc_roi_figures. cbn [bind].
  reflexivity.
Qed.

Lemma evaluate_nonempty (df : DataFrame) (sb : Sidebar) :
  df <> [] -> evaluate df sb = Return (EvaluationResult (figures df sb)).
Proof.
  intro Hne. unfold evaluate.
  destruct df as [| row rest]; [contradiction |].
  cbn [empty negb].
  now rewrite calculations_figures.
Qed.



(** ** The projection series *)




(** ** The claims *)












(** ** Column sums *)

Lemma fold_left_Qplus_acc (l : list Q) (a : Q) :
  fold_left Qplus l a == a + fold_left Qplus l 0.
Proof.
  revert a. induction l as [| x l IH]; intro a; cbn [fold_left].
  - ring.
  - rewrite (IH (a + x)), (IH (0 + x)). ring.
Qed.

Lemma sum_cons (col : FleetRow -> Q) (v : FleetRow) (df : DataFrame) :
  sum col (v :: df) == col v + sum col df.
Proof.
  unfold sum. cbn [map fold_left].
  rewrite fold_left_Qplus_acc. ring.
Qed.

Lemma sum_const (col : FleetRow -> Q) (c : Q) (df : DataFrame) :
  Forall (fun v => col v == c) df ->
  sum col df == inject_Z (Z.of_nat (List.length df)) * c.
Proof.
  induction 1 as [| v df Hv _ IH].
  - reflexivity.
  - rewrite sum_cons, Hv, IH.
    cbn [List.length]. rewrite Nat2Z.inj_succ. unfold Z.succ.
    rewrite inject_Z_plus. change (inject_Z 1) with 1. ring.
Qed.

(** Closed comparisons of rationals, by evaluation. *)
Ltac qcompute :=
  first [ apply Qeq_bool_iff | apply Qle_bool_iff | apply gt_true ];
  vm_compute; reflexivity.

(** C7. Five vehicles priced 8000 each, rentals summing to 4700, 3600 of
    maintenance and 1680 of insurance per vehicle, goodwill 15000,
    utilization 85, summer bonus 8000, tax 6, labor 500, fixed costs 1500,
    no financing: total price 55000, base revenue 47940, gross 55940,
    after tax 52583.60, opex 33900, net profit 18683.60, monthly cash flow
    1556.97 to the cent, upfront cash 55000 and payback 35.3 months to the
    tenth. *)
Theorem default_scenario_figures (df : DataFrame) (sb : Sidebar) :
  List.length df = 5%nat ->
  Forall (fun v => C_PRICE v == 8000) df ->
  Forall (fun v => C_MAINT v == 3600) df ->
  Forall (fun v => C_INS v == 1680) df ->
  sum C_RENT df == 4700 ->
  total_goodwill sb == 15000 ->
  utilization_rate sb == 85 ->
  summer_gap_total sb == 8000 ->
  ob_tax_rate sb == 6 ->
  monthly_labor sb == 500 ->
  fixed_opex_annual sb == 1500 ->
  use_loan sb = false ->
  exists r q,
    evaluate df sb = Return (EvaluationResult r)
    /\ total_assets r == 40000
    /\ total_price r == 55000
    /\ base_annual_rev r == 47940
    /\ gross_rev r == 55940
    /\ after_tax_rev r == 52583.60
    /\ total_annual_opex r == 33900
    /\ annual_net_profit r == 18683.60
    /\ (1556.965 <= monthly_cash_flow r /\ monthly_cash_flow r < 1556.975)
    /\ upfront_cash r == 55000
    /\ payback_months r = Months q
    /\ (35.25 <= q /\ q < 35.35).
Proof.
  intros Hlen Hprice Hmaint Hins Hrent Hgood Hutil Hgap Htax Hlab Hfix Hloan.
  apply sum_const in Hprice, Hmaint, Hins.
  rewrite Hlen in Hprice, Hmaint, Hins.
  assert (Hne : df <> []) by (intros ->; discriminate).
  assert (Hflow : monthly_cash_flow (figures df sb) == 18683.60 / 12).
  { cbn [figures monthly_cash_flow]. unfold monthly_loan_of.
    rewrite Hloan. cbn [andb].
    rewrite Hrent, Hutil, Hgap, Htax, Hmaint, Hins, Hlab, Hfix. qcompute. }
  assert (Hup : upfront_cash (figures df sb) == 55000).
  { cbn [figures upfront_cash]. unfold loan_amount_of.
    rewrite Hloan, Hprice, Hgood. qcompute. }
  assert (Hpos : gt (monthly_cash_flow (figures df sb)) 0 = true).
  { apply gt_true. rewrite Hflow. qcompute. }
  exists (figures df sb),
    (upfront_cash (figures df sb) / monthly_cash_flow (figures df sb)).
  split; [now apply evaluate_nonempty |].
  split. { cbn [figures total_assets]. rewrite Hprice. qcompute. }
  split. { cbn [figures total_price]. rewrite Hprice, Hgood. qcompute. }
  split. { cbn [figures base_annual_rev]. rewrite Hrent, Hutil. qcompute. }
  split. { cbn [figures gross_rev]. rewrite Hrent, Hutil, Hgap. qcompute. }
  split.
  { cbn [figures after_tax_rev]. rewrite Hrent, Hutil, Hgap, Htax. qcompute. }
  split.
  { cbn [figures total_annual_opex]. rewrite Hmaint, Hins, Hlab, Hfix.
    qcompute. }
  split.
  { cbn [figures annual_net_profit].
    rewrite Hrent, Hutil, Hgap, Htax, Hmaint, Hins, Hlab, Hfix. qcompute. }
  split. { rewrite Hflow. split; qcompute. }
  split; [exact Hup |].
  split.
  { change (payback_months (figures df sb))
      with (payback_of (upfront_cash (figures df sb))
                       (monthly_cash_flow (figures df sb))).
    unfold payback_of. now rewrite Hpos. }
  rewrite Hup, Hflow. split; qcompute.
Qed.

Lemma default_scenario_figures_witness :
  exists r q,
    evaluate fleet_df sidebar_defaults = Return (EvaluationResult r)
    /\ total_assets r == 40000
    /\ total_price r == 55000
    /\ base_annual_rev r == 47940
    /\ gross_rev r == 55940
    /\ after_tax_rev r == 52583.60
    /\ total_annual_opex r == 33900
    /\ annual_net_profit r == 18683.60
    /\ (1556.965 <= monthly_cash_flow r /\ monthly_cash_flow r < 1556.975)
    /\ upfront_cash r == 55000
    /\ payback_months r = Months q
    /\ (35.25 <= q /\ q < 35.35).
Proof.
  apply (default_scenario_figures fleet_df sidebar_defaults);
    try reflexivity;
    repeat (constructor; try reflexivity).
Defined.



(** C9. For every non-empty fleet and every sidebar with a positive
    monthly cash flow, the payback is a number of months at which the
    cash-position line -upfront cash + monthly cash flow x m is exactly
    zero. *)
Theorem break_even_at_payback (df : DataFrame) (sb : Sidebar) :
  df <> [] ->
  exists r,
    evaluate df sb = Return (EvaluationResult r)
    /\ (0 < monthly_cash_flow r ->
        exists q,
          payback_months r = Months q
          /\ - upfront_cash r + monthly_cash_flow r * q == 0).
Proof.
  intro Hne. exists (figures df sb).
  split; [now apply evaluate_nonempty |].
  intro Hpos.
  exists (upfront_cash (figures df sb) / monthly_cash_flow (figures df sb)).
  split.
  - change (payback_months (figures df sb))
      with (payback_of (upfront_cash (figures df sb))
                       (monthly_cash_flow (figures df sb))).
    unfold payback_of. apply gt_true in Hpos. now rewrite Hpos.
  - field. intro Hz. rewrite Hz in Hpos. now apply Qlt_irrefl in Hpos.
Qed.

Lemma break_even_at_payback_witness :
  fleet_df <> []
  /\ exists r q,
       evaluate fleet_df sidebar_defaults = Return (EvaluationResult r)
       /\ payback_months r = Months q
       /\ - upfront_cash r + monthly_cash_flow r * q == 0.
Proof.
  split; [discriminate |].
  destruct (break_even_at_payback fleet_df sidebar_defaults)
    as (r & Hr & H); [discriminate |].
  destruct H as (q & Hq & Hz).
  { injection Hr as <-. reflexivity. }
  exists r, q. repeat split; assumption.
Defined.

(** C10. With financing ticked and a loan term of 0 or less, the
    evaluation of a non-empty fleet still returns: the monthly payment is
    0, while the loan amount is total price x pct/100 and the upfront cash
    is the total price less the loan amount. *)
Theorem zero_term_financing (df : DataFrame) (sb : Sidebar) :
  df <> [] ->
  use_loan sb = true ->
  (loan_term sb <= 0)%Z ->
  exists r,
    evaluate df sb = Return (EvaluationResult r)
    /\ monthly_loan r = 0
    /\ loan_amount r = total_price r * (loan_pct sb / 100)
    /\ upfront_cash r = total_price r - loan_amount r
    /\ monthly_cash_flow r = monthly_net_profit r - 0.
Proof.
  intros Hne Hloan Hterm. exists (figures df sb).
  split; [now apply evaluate_nonempty |].
  cbn [figures monthly_loan loan_amount total_price upfront_cash
       monthly_cash_flow monthly_net_profit].
  unfold monthly_loan_of, loan_amount_of.
  apply Z.ltb_ge in Hterm. rewrite Hloan, Hterm. cbn [andb].
  repeat split.
Qed.

Lemma zero_term_financing_witness :
  exists r,
    evaluate fleet_df (with_loan_term sidebar_financed 0)
    = Return (EvaluationResult r)
    /\ monthly_loan r = 0
    /\ loan_amount r = total_price r * (50 / 100)
    /\ upfront_cash r = total_price r - loan_amount r
    /\ monthly_cash_flow r = monthly_net_profit r - 0.
Proof.
  apply (zero_term_financing fleet_df (with_loan_term sidebar_financed 0)).
  - discriminate.
  - reflexivity.
  - cbn. lia.
Defined.

(** * Further properties of the script *)

(** ** The verdict banner *)



(** ** Financing *)










(** X5. With "Use Financing?" not ticked the three loan widgets have no
    influence: two sidebars that agree on all other widgets give the same
    outcome for every fleet, whatever their loan share, interest and
    term. *)
Theorem unfinanced_ignores_loan_widgets (df : DataFrame) (sb sb' : Sidebar) :
  use_loan sb = false ->
  use_loan sb' = false ->
  total_goodwill sb = total_goodwill sb' ->
  utilization_rate sb = utilization_rate sb' ->
  summer_gap_total sb = summer_gap_total sb' ->
  monthly_labor sb = monthly_labor sb' ->
  fixed_opex_annual sb = fixed_opex_annual sb' ->
  ob_tax_rate sb = ob_tax_rate sb' ->
  evaluate df sb = evaluate df sb'.
Proof.
  intros Hl Hl' Hg Hu Hs Hm Hf Ht.
  destruct df as [| v df]; [reflexivity |].
  rewrite !evaluate_nonempty by discriminate.
  do 2 f_equal.
  unfold figures, loan_amount_of, monthly_loan_of.
  rewrite Hl, Hl', Hg, Hu, Hs, Hm, Hf, Ht. reflexivity.
Qed.

Lemma unfinanced_ignores_loan_widgets_witness :
  evaluate fleet_df sidebar_defaults
  = evaluate fleet_df
      (with_loan_term (with_loan_interest sidebar_defaults 9) 5).
Proof.
  apply (unfinanced_ignores_loan_widgets fleet_df sidebar_defaults
           (with_loan_term (with_loan_interest sidebar_defaults 9) 5));
    reflexivity.
Defined.

(** ** The chart *)









(** ** Dashboard metrics *)



(** ** Revenue *)







(** ** The fleet table *)





#[local] Instance loan_amount_of_proper (sb : Sidebar) :
  Proper (Qeq ==> Qeq) (loan_amount_of sb).
Proof.
  intros a b Hab. unfold loan_amount_of.
  destruct (use_loan sb); [now rewrite Hab | reflexivity].
Qed.

#[local] Instance monthly_loan_of_proper (sb : Sidebar) :
  Proper (Qeq ==> Qeq) (monthly_loan_of sb).
Proof.
  intros a b Hab. unfold monthly_loan_of.
  destruct (use_loan sb && (0 <? loan_term sb)%Z); [| reflexivity].
  destruct (gt (m_rate_of sb) 0); now rewrite Hab.
Qed.

#[local] Instance gt_proper : Proper (Qeq ==> Qeq ==> eq) gt.
Proof.
  intros a b Hab c d Hcd. unfold gt. now rewrite Hab, Hcd.
Qed.

#[local] Instance roi_of_proper : Proper (Qeq ==> Qeq ==> Qeq) roi_of.
Proof.
  intros a b Hab c d Hcd. unfold roi_of. rewrite Hcd.
  destruct (gt d 0); [now rewrite Hab, Hcd | reflexivity].
Qed.






(** ** The repayment schedule of the annuity *)

Section Schedule.

Variables (L rate : Q) (n : Z).
Hypothesis L_nonneg : 0 <= L.
Hypothesis rate_pos : 0 < rate.
Hypothesis n_pos : (0 < n)%Z.








End Schedule.


